(** * Thermal-Time-Calculator: thermal_time_calculator.py

    A shallow embedding of the thermal-time script and the properties its
    specification states about it.

    Numbers.  The script computes on IEEE doubles (Python floats and the
    numpy float64 scalars pandas hands out).  They are modelled by
    [float64]: exact rationals extended with the two infinities and NaN.
    Comparisons and arithmetic follow the IEEE rules for the special
    values (every comparison with NaN is false, inf - inf is NaN, a
    nonzero number divided by zero is an infinity, ...); rounding,
    overflow and the sign of zero are not modelled.

    pandas.  The splitting of a weather file into columns is not modelled:
    the file system gives, per file, an exception or the latitude and the
    data lines, each with the four columns kept.  The year and the day of
    a line are integers: a file with the sentinel -999 in column 0 or 1,
    whose NaN year or day [write_tt_line] cannot format, is outside the
    model.  The pandas calls are modelled after their behaviour:
    [read_csv(header=None)] raises EmptyDataError on a file without data
    lines, [rolling(window, min_periods=1)] raises ValueError unless
    [1 <= window] and takes the infinities for NaN,
    [groupby('doy').mean()] yields one row per distinct day of year in
    ascending order, and [drop(366)] raises KeyError when there is no
    label 366. *)

From Stdlib Require Import ZArith QArith Bool List String Ascii Lia Lqa.
From Stdlib Require Import DecimalString Sorted.
From stdpp Require Import gmap strings.

Local Open Scope Z_scope.

(** ** IEEE doubles, without rounding *)

Module F64.

Inductive float64 : Type :=
| NaN
| NInf
| Fin (q : Q)
| PInf.

Definition of_Z (z : Z) : float64 := Fin (inject_Z z).

Definition zero : float64 := Fin 0.

Definition is_nan (x : float64) : bool :=
  match x with NaN => true | _ => false end.

Definition Qltb (a b : Q) : bool := negb (Qle_bool b a).

(** [x <= y], [x < y] and [x >= y] of Python on floats. *)
Definition leb (x y : float64) : bool :=
  match x, y with
  | NaN, _ | _, NaN => false
  | NInf, _ => true
  | _, PInf => true
  | Fin a, Fin b => Qle_bool a b
  | _, _ => false
  end.

Definition ltb (x y : float64) : bool :=
  match x, y with
  | NaN, _ | _, NaN => false
  | NInf, NInf => false
  | NInf, _ => true
  | PInf, _ => false
  | Fin a, Fin b => Qltb a b
  | Fin _, PInf => true
  | Fin _, NInf => false
  end.

Definition geb (x y : float64) : bool := leb y x.

Definition neg (x : float64) : float64 :=
  match x with
  | NaN => NaN
  | NInf => PInf
  | PInf => NInf
  | Fin a => Fin (- a)
  end.

Definition add (x y : float64) : float64 :=
  match x, y with
  | NaN, _ | _, NaN => NaN
  | PInf, NInf | NInf, PInf => NaN
  | PInf, _ | _, PInf => PInf
  | NInf, _ | _, NInf => NInf
  | Fin a, Fin b => Fin (a + b)
  end.

Definition sub (x y : float64) : float64 := add x (neg y).

(** The infinity with the sign of [a], flipped unless [positive]; NaN for
    [a = 0]. *)
Definition signed_inf (a : Q) (positive : bool) : float64 :=
  match Qcompare a 0 with
  | Eq => NaN
  | Gt => if positive then PInf else NInf
  | Lt => if positive then NInf else PInf
  end.

Definition mul (x y : float64) : float64 :=
  match x, y with
  | NaN, _ | _, NaN => NaN
  | Fin a, Fin b => Fin (a * b)
  | Fin a, PInf | PInf, Fin a => signed_inf a true
  | Fin a, NInf | NInf, Fin a => signed_inf a false
  | PInf, PInf | NInf, NInf => PInf
  | PInf, NInf | NInf, PInf => NInf
  end.

(** numpy's float64 division: no exception, [x / 0] is an infinity or NaN. *)
Definition div (x y : float64) : float64 :=
  match x, y with
  | NaN, _ | _, NaN => NaN
  | Fin a, Fin b =>
      match Qcompare b 0 with
      | Eq => signed_inf a true
      | _ => Fin (a / b)
      end
  | Fin _, _ => Fin 0
  | PInf, Fin b => if Qle_bool 0 b then PInf else NInf
  | NInf, Fin b => if Qle_bool 0 b then NInf else PInf
  | _, _ => NaN
  end.

(** Equality of values: [Q] has several representations of one number. *)
Definition feq (x y : float64) : Prop :=
  match x, y with
  | NaN, NaN | NInf, NInf | PInf, PInf => True
  | Fin a, Fin b => Qeq a b
  | _, _ => False
  end.

End F64.

Import F64.

Declare Scope f64_scope.
Delimit Scope f64_scope with f64.
Bind Scope f64_scope with float64.
Infix "<=?" := F64.leb (at level 70, no associativity) : f64_scope.
Infix "<?" := F64.ltb (at level 70, no associativity) : f64_scope.
Infix ">=?" := F64.geb (at level 70, no associativity) : f64_scope.
Infix "+" := F64.add : f64_scope.
Infix "-" := F64.sub : f64_scope.
Infix "*" := F64.mul : f64_scope.
Infix "/" := F64.div : f64_scope.
Infix "==" := F64.feq (at level 70, no associativity) : f64_scope.

(** ** The calibration constants (module level in the script) *)

Definition T_THLD : float64 := of_Z 10.
Definition T_BASE : float64 := of_Z 6.
Definition T_OPT : float64 := of_Z 100.
Definition T_MAX : float64 := of_Z 100.

(** ** thermal_time *)

Definition thermal_time (t_base t_opt tmax tmp : float64) : float64 :=
  if ((tmp <=? t_base) || (tmp >=? tmax))%f64 then F64.zero
  else if (tmp <? t_opt)%f64 then (tmp - t_base)%f64
  else ((tmax - tmp) / (tmax - t_opt) * (t_opt - t_base))%f64.

(** Which of the three arms of [thermal_time] runs. *)
Inductive arm : Type := ArmZero | ArmRampUp | ArmRampDown.

Definition thermal_time_arm (t_base t_opt tmax tmp : float64) : arm :=
  if ((tmp <=? t_base) || (tmp >=? tmax))%f64 then ArmZero
  else if (tmp <? t_opt)%f64 then ArmRampUp
  else ArmRampDown.

(** ** cum_thermal_time *)

Definition DORMANT : Z := 0.
Definition GROWING : Z := 1.

Definition spring_trigger (doy tmp : float64) : bool :=
  ((doy <? of_Z 152) && (tmp >=? T_THLD))%f64.

Definition fall_trigger (doy tmp : float64) : bool :=
  ((doy >=? of_Z 245) && (tmp <? T_THLD))%f64.

Definition spring_assign (doy tmp : float64) (gs : Z) : Z :=
  if spring_trigger doy tmp then 1 else gs.

Definition fall_assign (doy tmp : float64) (gs : Z) : Z :=
  if fall_trigger doy tmp then 0 else gs.

(** Lines 53-60: the on/off switch of the growing season. *)
Definition season_gate (latitude doy tmp : float64) (gs : Z) : Z :=
  if (latitude >=? F64.zero)%f64 then
    let gs := spring_assign doy tmp gs in
    let gs := fall_assign doy tmp gs in
    gs
  else gs.

(** The same switch with the two assignments in the other order; the
    script does not have it, it is what [season_gate] is compared with. *)
Definition season_gate_fall_first (latitude doy tmp : float64) (gs : Z) : Z :=
  if (latitude >=? F64.zero)%f64 then
    let gs := fall_assign doy tmp gs in
    let gs := spring_assign doy tmp gs in
    gs
  else gs.

Definition cum_thermal_time (latitude doy tmp tavg : float64) (gs : Z)
    (tt0 : float64) : Z * float64 :=
  let gs := season_gate latitude doy tmp gs in
  let tt := if gs =? 1
            then (thermal_time T_BASE T_OPT T_MAX tavg + tt0)%f64
            else F64.zero in
  (gs, tt).

(** ** The data frame *)

(** One line of the weather file as [read_csv] keeps it: columns 0, 1, 3
    and 4, with the sentinel -999 already turned into NaN. *)
Record raw_row : Type := mk_raw {
  raw_year : Z;
  raw_doy : Z;
  raw_tmax : float64;
  raw_tmin : float64
}.

(** A row of [df].  The column [tma] exists in Mode A only; elsewhere the
    field is never read and holds NaN. *)
Record row : Type := mk_row {
  year : float64;
  doy : Z;
  tmax : float64;
  tmin : float64;
  tavg : float64;
  tma : float64
}.

Definition DataFrame : Type := list row.

Inductive exn : Type :=
| ValueError
| KeyError
| EmptyDataError   (* read_csv on a file without data lines *)
| InputError       (* whatever open / read_csv / float() raise on a bad file *)
| SystemExit.      (* argparse leaving on a usage error *)

Definition result (A : Type) : Type := (exn + A)%type.

(** ** read_weather *)

(** A directory entry.  [file_parse] is what the file holds when it can be
    opened and split into columns: the latitude and the data lines, of
    which there may be none. *)
Record file : Type := mk_file {
  file_name : string;
  file_parse : result (float64 * list raw_row)
}.

Definition half : float64 := Fin (1 # 2).

Definition with_tavg (r : raw_row) : row :=
  {| year := of_Z (raw_year r);
     doy := raw_doy r;
     tmax := raw_tmax r;
     tmin := raw_tmin r;
     tavg := (half * raw_tmax r + half * raw_tmin r)%f64;
     tma := NaN |}.

(** [read_csv] with [header=None] has nothing to take the columns from in
    a file without data lines, and raises. *)
Definition read_weather (f : file) : result (float64 * DataFrame) :=
  match file_parse f with
  | inl e => inl e
  | inr (latitude, []) => inl EmptyDataError
  | inr (latitude, rows) => inr (latitude, map with_tavg rows)
  end.

(** ** The pandas calls of main *)

Definition fsum (l : list float64) : float64 :=
  fold_left F64.add l F64.zero.

(** Mean of the values that are not NaN; NaN when there is none. *)
Definition nanmean (l : list float64) : float64 :=
  let v := List.filter (fun x => negb (is_nan x)) l in
  match v with
  | [] => NaN
  | _ => (fsum v / of_Z (Z.of_nat (length v)))%f64
  end.

(** [recent] holds the values already seen, the latest first. *)
Fixpoint rolling_from (window : nat) (recent l : list float64) : list float64 :=
  match l with
  | [] => []
  | x :: l' =>
      nanmean (firstn window (x :: recent))
        :: rolling_from window (x :: recent) l'
  end.

(** pandas turns the infinities into NaN before it rolls. *)
Definition rolling_prep (x : float64) : float64 :=
  match x with
  | PInf | NInf => NaN
  | _ => x
  end.

(** [df.rolling(window, min_periods=1).mean()['tavg']]. *)
Definition rolling_mean_tavg (window : Z) (df : DataFrame) : result (list float64) :=
  if window <? 1 then inl ValueError
  else inr (rolling_from (Z.to_nat window) [] (map rolling_prep (map tavg df))).

Fixpoint set_tma (df : DataFrame) (v : list float64) : DataFrame :=
  match df, v with
  | r :: df', x :: v' =>
      {| year := year r; doy := doy r; tmax := tmax r; tmin := tmin r;
         tavg := tavg r; tma := x |} :: set_tma df' v'
  | _, _ => []
  end.

(** The groups of [groupby('doy')]: ascending keys, rows in file order. *)
Fixpoint group_insert (r : row) (groups : list (Z * list row)) : list (Z * list row) :=
  match groups with
  | [] => [(doy r, [r])]
  | (k, rs) :: groups' =>
      if doy r <? k then (doy r, [r]) :: groups
      else if doy r =? k then (k, rs ++ [r]) :: groups'
      else (k, rs) :: group_insert r groups'
  end.

Definition groupby_doy (df : DataFrame) : list (Z * list row) :=
  fold_left (fun groups r => group_insert r groups) df [].

Definition group_mean (g : Z * list row) : row :=
  let rs := snd g in
  {| year := nanmean (map year rs);
     doy := fst g;
     tmax := nanmean (map tmax rs);
     tmin := nanmean (map tmin rs);
     tavg := nanmean (map tavg rs);
     tma := NaN |}.

(** [df.groupby('doy').mean()], the index kept in the field [doy]. *)
Definition groupby_doy_mean (df : DataFrame) : DataFrame :=
  map group_mean (groupby_doy df).

(** [df.drop(label)]: the label has to be there. *)
Definition drop (label : Z) (df : DataFrame) : result DataFrame :=
  if existsb (fun r => doy r =? label) df
  then inr (List.filter (fun r => negb (doy r =? label)) df)
  else inl KeyError.

(** ** The output file *)

(** A line of the output file.  The header is kept as text; the numbers of
    a data line are kept as values, their [%] formatting is not modelled. *)
Inductive line : Type :=
| Header (text : string)
| DayA (year : float64) (doy : Z) (tavg tma tt : float64) (gs : Z)
| DayB (doy : Z) (tavg tt : float64) (gs : Z).

Fixpoint spaces (n : nat) : string :=
  match n with
  | O => EmptyString
  | S n' => String " "%char (spaces n')
  end.

(** [%-8s] *)
Definition ljust8 (s : string) : string :=
  (s ++ spaces (8 - String.length s))%string.

(** [%d] *)
Definition decimal (z : Z) : string := NilZero.string_of_int (Z.to_int z).

Definition newline : string := String (ascii_of_nat 10) EmptyString.

Definition write_header_line (all_days : bool) (window : Z) : line :=
  if all_days then
    Header (ljust8 "YEAR" ++ ljust8 "DOY" ++ ljust8 "TAVG"
              ++ ljust8 ("TMA" ++ decimal window) ++ ljust8 "TT"
              ++ "GROWING" ++ newline)%string
  else
    Header (ljust8 "DOY" ++ ljust8 "TAVG" ++ ljust8 "TT"
              ++ "GROWING" ++ newline)%string.

Definition write_tt_line (all_days : bool) (r : row) (tt : float64) (gs : Z) : line :=
  if all_days then DayA (year r) (doy r) (tavg r) (tma r) tt gs
  else DayB (doy r) (tavg r) tt gs.

Definition line_gs (l : line) : option Z :=
  match l with
  | Header _ => None
  | DayA _ _ _ _ _ gs | DayB _ _ _ gs => Some gs
  end.

Definition line_tt (l : line) : option float64 :=
  match l with
  | Header _ => None
  | DayA _ _ _ _ t _ | DayB _ _ t _ => Some t
  end.

Definition line_doy (l : line) : option Z :=
  match l with
  | Header _ => None
  | DayA _ d _ _ _ _ | DayB d _ _ _ => Some d
  end.

(** What the properties say of a line of the output file. *)

Definition flag_is_01 (l : line) : Prop :=
  match line_gs l with
  | Some gs => gs = DORMANT \/ gs = GROWING
  | None => True
  end.

(** A data line whose flag is not GROWING carries the cumulative 0.0. *)
Definition reset_when_dormant (l : line) : Prop :=
  match line_gs l, line_tt l with
  | Some gs, Some t => gs <> GROWING -> t = Fin 0
  | _, _ => True
  end.

Definition dormant_and_zero (l : line) : Prop :=
  line_gs l = Some DORMANT /\ line_tt l = Some (Fin 0).

(** ** The series loop (lines 178-188) *)

Fixpoint series (all_days : bool) (latitude : float64) (df : DataFrame)
    (gs : Z) (tt : float64) : list line :=
  match df with
  | [] => []
  | r :: df' =>
      let '(gs1, tt1) :=
        cum_thermal_time latitude (of_Z (doy r))
          (if all_days then tma r else tavg r) (tavg r) gs tt in
      write_tt_line all_days r tt1 gs1 :: series all_days latitude df' gs1 tt1
  end.

(** ** Command line *)

Record args : Type := mk_args {
  path : string;
  extension : string;
  hlines : Z;
  latline : Z;
  window : Z;
  all_days : bool
}.

(** The command line after argparse has split and converted it: an option
    that was not given is [None]. *)
Record cli : Type := mk_cli {
  cli_path : option string;
  cli_extension : option string;
  cli_hlines : option Z;
  cli_latline : option Z;
  cli_window : option Z;
  cli_all_days : bool
}.

Definition parse_arguments (c : cli) : result args :=
  match cli_path c, cli_extension c, cli_hlines c, cli_latline c with
  | Some p, Some e, Some n, Some l =>
      inr {| path := p; extension := e; hlines := n; latline := l;
             window := default 14 (cli_window c);
             all_days := cli_all_days c |}
  | _, _, _, _ => inl SystemExit
  end.

(** ** The world main acts on, and its monad *)

Record world : Type := mk_world {
  stdout : list string;              (* lines printed, oldest first *)
  reads : list string;               (* directory entries opened for reading *)
  dirs : gset string;                (* directories that exist *)
  files : gmap string (list line)    (* output files and their lines *)
}.

Definition empty_world : world :=
  {| stdout := []; reads := []; dirs := ∅; files := ∅ |}.

Definition M (A : Type) : Type := world -> world * result A.

Definition ret {A : Type} (x : A) : M A := fun w => (w, inr x).

Definition raise {A : Type} (e : exn) : M A := fun w => (w, inl e).

Definition bind {A B : Type} (m : M A) (k : A -> M B) : M B :=
  fun w =>
    match m w with
    | (w', inl e) => (w', inl e)
    | (w', inr x) => k x w'
    end.

Definition lift {A : Type} (r : result A) : M A :=
  match r with
  | inl e => raise e
  | inr x => ret x
  end.

#[export] Instance M_ret : MRet M := @ret.
#[export] Instance M_bind : MBind M := fun A B k m => bind m k.

Definition print (s : string) : M unit :=
  fun w => ({| stdout := stdout w ++ [s]; reads := reads w;
               dirs := dirs w; files := files w |}, inr tt).

(** [read_weather] on a directory entry: the entry is opened, then parsed. *)
Definition do_read_weather (f : file) : M (float64 * DataFrame) :=
  fun w => ({| stdout := stdout w; reads := reads w ++ [file_name f];
               dirs := dirs w; files := files w |}, read_weather f).

(** [if not os.path.exists(dirn): os.makedirs(dirn)] *)
Definition ensure_dir (dirn : string) : M unit :=
  fun w => ({| stdout := stdout w; reads := reads w;
               dirs := if bool_decide (dirn ∈ dirs w) then dirs w
                       else {[dirn]} ∪ dirs w;
               files := files w |}, inr tt).

(** The [with open(fn, 'w') as fp] block, once its lines are known: the
    file is created or truncated and the lines are written. *)
Definition write_file (fn : string) (lines : list line) : M unit :=
  fun w => ({| stdout := stdout w; reads := reads w; dirs := dirs w;
               files := <[fn := lines]> (files w) |}, inr tt).

(** ** main *)

(** [s.endswith(suffix)] *)
Definition endswith (s suffix : string) : bool :=
  let n := String.length s in
  let m := String.length suffix in
  (m <=? n)%nat && String.eqb (substring (n - m) m s) suffix.

(** [s[0:-k]] for [k >= 0]; note that [s[0:-0]] is empty. *)
Definition slice_to_minus (k : nat) (s : string) : string :=
  match k with
  | O => EmptyString
  | _ => substring 0 (String.length s - k) s
  end.

Definition output_name (a : args) (f : file) : string :=
  ("thermal_time" ++ "/"
     ++ slice_to_minus (String.length (extension a)) (file_name f)
     ++ "tt.txt")%string.

(** Lines 155-162: the table the series loop runs over. *)
Definition prepare (a : args) (df : DataFrame) : result DataFrame :=
  if all_days a then
    match rolling_mean_tavg (window a) df with
    | inl e => inl e
    | inr v => inr (set_tma df v)
    end
  else drop 366 (groupby_doy_mean df).

(** The lines the [with] block writes. *)
Definition output_lines (a : args) (latitude : float64) (df : DataFrame) : list line :=
  write_header_line (all_days a) (window a)
    :: series (all_days a) latitude df 0 F64.zero.

(** [file.endswith('.' + extension)] *)
Definition matches (a : args) (f : file) : bool :=
  endswith (file_name f) ("." ++ extension a).

(** The body of the [for file in os.listdir(path)] loop. *)
Definition process (a : args) (f : file) : M unit :=
  if negb (matches a f) then ret tt
  else
    print ("Processing " ++ file_name f ++ "...") ;;
    '(latitude, df) ← do_read_weather f;
    df ← lift (prepare a df);
    ensure_dir "thermal_time" ;;
    write_file (output_name a f) (output_lines a latitude df).

Fixpoint process_all (a : args) (listing : list file) : M unit :=
  match listing with
  | [] => ret tt
  | f :: listing' => process a f ;; process_all a listing'
  end.

(** The world once [f] has been announced and opened for reading. *)
Definition after_read (f : file) (w : world) : world :=
  {| stdout := stdout w ++ [("Processing " ++ file_name f ++ "...")%string];
     reads := reads w ++ [file_name f];
     dirs := dirs w;
     files := files w |}.

(** The world once the output file of [f] has been written as well. *)
Definition after_write (a : args) (f : file) (lines : list line) (w : world) : world :=
  {| stdout := stdout w ++ [("Processing " ++ file_name f ++ "...")%string];
     reads := reads w ++ [file_name f];
     dirs := if bool_decide ("thermal_time" ∈ dirs w) then dirs w
             else {["thermal_time"]} ∪ dirs w;
     files := <[output_name a f := lines]> (files w) |}.

(** Whether the weather file has a line for day [d]. *)
Definition has_doy (d : Z) (rows : list raw_row) : bool :=
  existsb (fun r => raw_doy r =? d) rows.

(** [listing] is what [os.listdir(path)] returns, in its order. *)
Definition main (c : cli) (listing : list file) : M unit :=
  a ← lift (parse_arguments c); process_all a listing.

(** ** Values that are numbers *)

(** A value that is a number, and not a negative one. *)
Definition nonneg (x : float64) : Prop :=
  exists q : Q, x = Fin q /\ (0 <= q)%Q.

Definition cumulative_nonneg (l : line) : Prop :=
  match line_tt l with
  | Some t => nonneg t
  | None => True
  end.

(** * Properties *)

(** ** The order on float64 *)

Section Order.

Lemma Qle_bool_true (a b : Q) : Qle_bool a b = true <-> (a <= b)%Q.
Proof. apply Qle_bool_iff. Qed.

Lemma Qle_bool_false (a b : Q) : Qle_bool a b = false <-> (b < a)%Q.
Proof.
  split.
  - intros H. apply Qnot_le_lt. intros Hle.
    apply Qle_bool_iff in Hle. congruence.
  - intros H. destruct (Qle_bool a b) eqn:E; [|reflexivity].
    apply Qle_bool_iff in E. lra.
Qed.

Lemma Qltb_true (a b : Q) : Qltb a b = true <-> (a < b)%Q.
Proof.
  unfold Qltb. rewrite negb_true_iff. apply Qle_bool_false.
Qed.

Lemma Qltb_false (a b : Q) : Qltb a b = false <-> (b <= a)%Q.
Proof.
  unfold Qltb. rewrite negb_false_iff. apply Qle_bool_true.
Qed.

End Order.

(** Turns the comparisons of the context and of the goal into facts on
    [Q] and leaves the arithmetic to [lra]. *)
Ltac f64_cases :=
  repeat match goal with
         | x : float64 |- _ => destruct x
         end;
  cbn [F64.leb F64.ltb F64.geb F64.zero of_Z] in *;
  unfold F64.geb in *;
  cbn [F64.leb F64.ltb] in *.

Ltac f64_to_Q :=
  repeat match goal with
         | H : Qle_bool _ _ = true |- _ => apply Qle_bool_true in H
         | H : Qle_bool _ _ = false |- _ => apply Qle_bool_false in H
         | H : Qltb _ _ = true |- _ => apply Qltb_true in H
         | H : Qltb _ _ = false |- _ => apply Qltb_false in H
         | |- Qle_bool _ _ = true => apply Qle_bool_true
         | |- Qle_bool _ _ = false => apply Qle_bool_false
         | |- Qltb _ _ = true => apply Qltb_true
         | |- Qltb _ _ = false => apply Qltb_false
         end.

Ltac f64_order :=
  f64_cases; try discriminate; try reflexivity; f64_to_Q;
  try (unfold inject_Z in *; lra).

Section OrderFacts.

Lemma ltb_not_geb (x y : float64) : (x <? y)%f64 = true -> (x >=? y)%f64 = false.
Proof. intros H. f64_order. Qed.

Lemma ltb_not_leb (x y : float64) : (x <? y)%f64 = true -> (y <=? x)%f64 = false.
Proof. intros H. f64_order. Qed.

Lemma leb_not_ltb (x y : float64) : (x <=? y)%f64 = true -> (y <? x)%f64 = false.
Proof. intros H. f64_order. Qed.

Lemma ltb_leb_trans (x y z : float64) :
  (x <? y)%f64 = true -> (y <=? z)%f64 = true -> (x <? z)%f64 = true.
Proof. intros H1 H2. f64_order. Qed.

Lemma ltb_trans (x y z : float64) :
  (x <? y)%f64 = true -> (y <? z)%f64 = true -> (x <? z)%f64 = true.
Proof. intros H1 H2. f64_order. Qed.

Lemma nan_leb_l (y : float64) : (NaN <=? y)%f64 = false.
Proof. reflexivity. Qed.

Lemma nan_leb_r (x : float64) : (x <=? NaN)%f64 = false.
Proof. destruct x; reflexivity. Qed.

Lemma nan_ltb_l (y : float64) : (NaN <? y)%f64 = false.
Proof. reflexivity. Qed.

Lemma nan_ltb_r (x : float64) : (x <? NaN)%f64 = false.
Proof. destruct x; reflexivity. Qed.

(** Off NaN the order is total. *)
Lemma leb_total (x y : float64) :
  is_nan x = false -> is_nan y = false ->
  (x <? y)%f64 = true \/ (y <=? x)%f64 = true.
Proof.
  intros Hx Hy. destruct x, y; cbn in *; try discriminate; auto.
  destruct (Qlt_le_dec q q0); [left | right]; f64_to_Q; assumption.
Qed.

End OrderFacts.

(** ** thermal_time *)

Section ThermalTime.

Lemma thermal_time_by_arm (t_base t_opt tmax tmp : float64) :
  thermal_time t_base t_opt tmax tmp =
  match thermal_time_arm t_base t_opt tmax tmp with
  | ArmZero => F64.zero
  | ArmRampUp => (tmp - t_base)%f64
  | ArmRampDown => ((tmax - tmp) / (tmax - t_opt) * (t_opt - t_base))%f64
  end.
Proof.
  unfold thermal_time, thermal_time_arm.
  destruct ((tmp <=? t_base) || (tmp >=? tmax))%f64; [reflexivity|].
  destruct (tmp <? t_opt)%f64; reflexivity.
Qed.

Lemma thermal_time_zero (t_base t_opt tmax tmp : float64) :
  (tmp <=? t_base)%f64 = true \/ (tmp >=? tmax)%f64 = true ->
  thermal_time t_base t_opt tmax tmp = F64.zero.
Proof.
  intros H. unfold thermal_time.
  replace ((tmp <=? t_base) || (tmp >=? tmax))%f64 with true; [reflexivity|].
  symmetry. apply orb_true_iff. exact H.
Qed.

Lemma thermal_time_ramp_up (t_base t_opt tmax tmp : float64) :
  (t_opt <=? tmax)%f64 = true ->
  (t_base <? tmp)%f64 = true -> (tmp <? t_opt)%f64 = true ->
  thermal_time t_base t_opt tmax tmp = (tmp - t_base)%f64.
Proof.
  intros Hom Hlo Hhi. unfold thermal_time.
  rewrite (ltb_not_leb _ _ Hlo).
  rewrite (ltb_not_geb _ _ (ltb_leb_trans _ _ _ Hhi Hom)).
  cbn [orb]. rewrite Hhi. reflexivity.
Qed.

Lemma thermal_time_ramp_down (t_base t_opt tmax tmp : float64) :
  (t_base <? t_opt)%f64 = true ->
  (t_opt <=? tmp)%f64 = true -> (tmp <? tmax)%f64 = true ->
  thermal_time t_base t_opt tmax tmp =
  ((tmax - tmp) / (tmax - t_opt) * (t_opt - t_base))%f64.
Proof.
  intros Hbo Hlo Hhi. unfold thermal_time.
  rewrite (ltb_not_leb _ _ (ltb_leb_trans _ _ _ Hbo Hlo)).
  rewrite (ltb_not_geb _ _ Hhi).
  cbn [orb]. rewrite (leb_not_ltb _ _ Hlo). reflexivity.
Qed.

Lemma ramp_down_at_optimum (b o m : Q) :
  (o < m)%Q ->
  ((Fin m - Fin o) / (Fin m - Fin o) * (Fin o - Fin b) == Fin (o - b))%f64.
Proof.
  intros Hom. cbn [F64.sub F64.neg F64.add F64.div].
  destruct (Qcompare_spec (m + - o) 0) as [E | E | E]; try lra;
    cbn [F64.mul F64.feq]; field; lra.
Qed.

(** C1.  With [base < optimum < max], [thermal_time] is 0.0 when
    [temp <= base] or [temp >= max], is [temp - base] when
    [base < temp < optimum], is
    [(max - temp) / (max - optimum) * (optimum - base)] when
    [optimum <= temp < max], and at [temp = optimum] its value is
    [optimum - base].  The temperature ranges over all of [float64], NaN
    and the infinities included; the calibration over the numbers. *)
Theorem thermal_time_piecewise (b o m : Q) (tmp : float64) :
  (b < o)%Q -> (o < m)%Q ->
  ((tmp <=? Fin b)%f64 = true \/ (tmp >=? Fin m)%f64 = true ->
     thermal_time (Fin b) (Fin o) (Fin m) tmp = Fin 0)
  /\ ((Fin b <? tmp)%f64 = true -> (tmp <? Fin o)%f64 = true ->
     thermal_time (Fin b) (Fin o) (Fin m) tmp = (tmp - Fin b)%f64)
  /\ ((Fin o <=? tmp)%f64 = true -> (tmp <? Fin m)%f64 = true ->
     thermal_time (Fin b) (Fin o) (Fin m) tmp =
     ((Fin m - tmp) / (Fin m - Fin o) * (Fin o - Fin b))%f64)
  /\ (thermal_time (Fin b) (Fin o) (Fin m) (Fin o) == Fin (o - b))%f64.
Proof.
  intros Hbo Hom.
  assert (Hbo' : (Fin b <? Fin o)%f64 = true) by (cbn; f64_to_Q; exact Hbo).
  assert (Hom' : (Fin o <? Fin m)%f64 = true) by (cbn; f64_to_Q; exact Hom).
  assert (Hom'' : (Fin o <=? Fin m)%f64 = true) by (cbn; f64_to_Q; lra).
  repeat split.
  - apply thermal_time_zero.
  - apply thermal_time_ramp_up; assumption.
  - apply thermal_time_ramp_down; assumption.
  - rewrite thermal_time_ramp_down; try assumption.
    + apply ramp_down_at_optimum; assumption.
    + cbn. f64_to_Q. lra.
Qed.

Lemma thermal_time_piecewise_witness :
  (6 < 30)%Q /\ (30 < 40)%Q /\
  thermal_time (Fin 6) (Fin 30) (Fin 40) (Fin 35) =
  ((Fin 40 - Fin 35) / (Fin 40 - Fin 30) * (Fin 30 - Fin 6))%f64.
Proof.
  split; [reflexivity | split; [reflexivity |]].
  apply (thermal_time_piecewise 6 30 40 (Fin 35)); reflexivity.
Defined.

End ThermalTime.

(** ** The season gate and the accumulator *)

Section SeasonGate.

Lemma spring_excludes_fall (doy tmp : float64) :
  spring_trigger doy tmp = true -> fall_trigger doy tmp = false.
Proof.
  unfold spring_trigger, fall_trigger. intros H.
  apply andb_true_iff in H. destruct H as [Hd _].
  apply andb_false_iff. left.
  destruct doy; cbn in *; try discriminate; try reflexivity.
  f64_to_Q. unfold inject_Z in *. lra.
Qed.

(** C2.  North of the equator (latitude >= 0) one step of the gate gives
    GROWING when [doy < 152] and the reference temperature is at least the
    threshold, DORMANT when [doy >= 245] and the reference temperature is
    below the threshold, and the prior flag in every other case. *)
Theorem season_gate_north (latitude doy tmp : float64) (gs : Z) :
  (latitude >=? F64.zero)%f64 = true ->
  ((doy <? of_Z 152)%f64 = true -> (tmp >=? T_THLD)%f64 = true ->
     season_gate latitude doy tmp gs = GROWING)
  /\ ((doy >=? of_Z 245)%f64 = true -> (tmp <? T_THLD)%f64 = true ->
     season_gate latitude doy tmp gs = DORMANT)
  /\ (((doy <? of_Z 152) && (tmp >=? T_THLD))%f64 = false ->
      ((doy >=? of_Z 245) && (tmp <? T_THLD))%f64 = false ->
     season_gate latitude doy tmp gs = gs).
Proof.
  intros Hlat. unfold season_gate. rewrite Hlat.
  split; [| split].
  - intros Hd Ht.
    assert (Hs : spring_trigger doy tmp = true).
    { unfold spring_trigger. rewrite Hd, Ht. reflexivity. }
    unfold fall_assign, spring_assign.
    rewrite (spring_excludes_fall _ _ Hs), Hs. reflexivity.
  - intros Hd Ht. unfold fall_assign, fall_trigger.
    rewrite Hd, Ht. reflexivity.
  - intros Hs Hf. unfold fall_assign, spring_assign, fall_trigger, spring_trigger.
    rewrite Hf, Hs. reflexivity.
Qed.

Lemma season_gate_north_witness :
  season_gate (of_Z 45) (of_Z 100) (of_Z 12) DORMANT = GROWING
  /\ season_gate (of_Z 45) (of_Z 250) (of_Z 8) GROWING = DORMANT
  /\ season_gate (of_Z 45) (of_Z 200) (of_Z 3) GROWING = GROWING.
Proof.
  split; [| split].
  - apply (season_gate_north (of_Z 45) (of_Z 100) (of_Z 12) DORMANT); reflexivity.
  - apply (season_gate_north (of_Z 45) (of_Z 250) (of_Z 8) GROWING); reflexivity.
  - apply (season_gate_north (of_Z 45) (of_Z 200) (of_Z 3) GROWING); reflexivity.
Defined.

Lemma cum_thermal_time_dormant (latitude doy tmp tavg : float64) (gs : Z)
    (tt0 : float64) :
  fst (cum_thermal_time latitude doy tmp tavg gs tt0) <> GROWING ->
  snd (cum_thermal_time latitude doy tmp tavg gs tt0) = Fin 0.
Proof.
  unfold cum_thermal_time. cbn [fst snd]. intros Hne.
  destruct (Z.eqb_spec (season_gate latitude doy tmp gs) 1) as [E | E].
  - contradiction.
  - reflexivity.
Qed.

(** C3.  A step of the accumulator first runs the gate on the prior flag;
    the new cumulative is [thermal_time] of the day's average plus the
    prior cumulative when the new flag is GROWING, and 0.0 otherwise. *)
Theorem cum_thermal_time_step (latitude doy tmp tavg : float64) (gs : Z)
    (tt0 : float64) :
  fst (cum_thermal_time latitude doy tmp tavg gs tt0)
    = season_gate latitude doy tmp gs
  /\ (season_gate latitude doy tmp gs = GROWING ->
      snd (cum_thermal_time latitude doy tmp tavg gs tt0)
        = (thermal_time T_BASE T_OPT T_MAX tavg + tt0)%f64)
  /\ (season_gate latitude doy tmp gs <> GROWING ->
      snd (cum_thermal_time latitude doy tmp tavg gs tt0) = Fin 0).
Proof.
  unfold cum_thermal_time. cbn [fst snd].
  split; [reflexivity | split].
  - intros ->. reflexivity.
  - intros Hne. apply (cum_thermal_time_dormant latitude doy tmp tavg gs tt0).
    exact Hne.
Qed.

(** C7.  The spring condition and the fall condition never hold on the
    same day, so the two assignments give the same flag in either order. *)
Theorem triggers_exclusive (latitude doy tmp : float64) (gs : Z) :
  (((doy <? of_Z 152) && (tmp >=? T_THLD))
     && ((doy >=? of_Z 245) && (tmp <? T_THLD)))%f64 = false
  /\ season_gate latitude doy tmp gs = season_gate_fall_first latitude doy tmp gs.
Proof.
  assert (Hx : spring_trigger doy tmp && fall_trigger doy tmp = false).
  { destruct (spring_trigger doy tmp) eqn:Hs; [| reflexivity].
    rewrite (spring_excludes_fall _ _ Hs). reflexivity. }
  split; [exact Hx |].
  unfold season_gate, season_gate_fall_first, fall_assign, spring_assign.
  destruct (latitude >=? F64.zero)%f64; [| reflexivity].
  destruct (spring_trigger doy tmp), (fall_trigger doy tmp);
    try reflexivity; discriminate.
Qed.

(** South of the equator the gate is the identity. *)
Lemma season_gate_south (latitude doy tmp : float64) (gs : Z) :
  (latitude <? F64.zero)%f64 = true -> season_gate latitude doy tmp gs = gs.
Proof.
  intros Hlat. unfold season_gate. rewrite (ltb_not_geb _ _ Hlat). reflexivity.
Qed.

Lemma season_gate_flag (latitude doy tmp : float64) (gs : Z) :
  gs = DORMANT \/ gs = GROWING ->
  season_gate latitude doy tmp gs = DORMANT
  \/ season_gate latitude doy tmp gs = GROWING.
Proof.
  intros Hgs. unfold season_gate, fall_assign, spring_assign.
  destruct (latitude >=? F64.zero)%f64; [| exact Hgs].
  destruct (fall_trigger doy tmp); [left; reflexivity |].
  destruct (spring_trigger doy tmp); [right; reflexivity | exact Hgs].
Qed.

End SeasonGate.

(** ** The calibration with optimum = max *)

Section Degenerate.







End Degenerate.

(** ** The series loop *)

Section Series.

Lemma write_tt_line_gs (all_days : bool) (r : row) (t : float64) (gs : Z) :
  line_gs (write_tt_line all_days r t gs) = Some gs.
Proof. destruct all_days; reflexivity. Qed.

Lemma write_tt_line_tt (all_days : bool) (r : row) (t : float64) (gs : Z) :
  line_tt (write_tt_line all_days r t gs) = Some t.
Proof. destruct all_days; reflexivity. Qed.

Lemma write_tt_line_doy (all_days : bool) (r : row) (t : float64) (gs : Z) :
  line_doy (write_tt_line all_days r t gs) = Some (doy r).
Proof. destruct all_days; reflexivity. Qed.

Lemma series_cons (all_days : bool) (latitude : float64) (r : row)
    (df : DataFrame) (gs : Z) (t : float64) :
  series all_days latitude (r :: df) gs t =
  let step := cum_thermal_time latitude (of_Z (doy r))
                (if all_days then tma r else tavg r) (tavg r) gs t in
  write_tt_line all_days r (snd step) (fst step)
    :: series all_days latitude df (fst step) (snd step).
Proof. reflexivity. Qed.

Lemma series_length (all_days : bool) (latitude : float64) (df : DataFrame) :
  forall (gs : Z) (t : float64),
    length (series all_days latitude df gs t) = length df.
Proof.
  induction df as [| r df IH]; intros gs t; [reflexivity |].
  rewrite series_cons. cbn [length]. rewrite IH. reflexivity.
Qed.

Lemma series_doy (all_days : bool) (latitude : float64) (df : DataFrame) :
  forall (gs : Z) (t : float64),
    map line_doy (series all_days latitude df gs t) = map (fun r => Some (doy r)) df.
Proof.
  induction df as [| r df IH]; intros gs t; [reflexivity |].
  rewrite series_cons. cbn [map]. rewrite IH, write_tt_line_doy. reflexivity.
Qed.

Lemma series_reset (all_days : bool) (latitude : float64) (df : DataFrame) :
  forall (gs : Z) (t : float64),
    Forall reset_when_dormant (series all_days latitude df gs t).
Proof.
  induction df as [| r df IH]; intros gs t; [constructor |].
  rewrite series_cons. constructor; [| apply IH].
  unfold reset_when_dormant.
  rewrite write_tt_line_gs, write_tt_line_tt.
  intros Hne. apply cum_thermal_time_dormant. exact Hne.
Qed.

Lemma series_flags (all_days : bool) (latitude : float64) (df : DataFrame) :
  forall (gs : Z) (t : float64),
    gs = DORMANT \/ gs = GROWING ->
    Forall flag_is_01 (series all_days latitude df gs t).
Proof.
  induction df as [| r df IH]; intros gs t Hgs; [constructor |].
  rewrite series_cons.
  assert (Hstep : fst (cum_thermal_time latitude (of_Z (doy r))
                         (if all_days then tma r else tavg r) (tavg r) gs t) = DORMANT
                  \/ fst (cum_thermal_time latitude (of_Z (doy r))
                         (if all_days then tma r else tavg r) (tavg r) gs t) = GROWING).
  { cbn [cum_thermal_time fst]. apply season_gate_flag. exact Hgs. }
  constructor; [| apply IH; exact Hstep].
  unfold flag_is_01. rewrite write_tt_line_gs. exact Hstep.
Qed.

(** C4.  In the series started from (DORMANT, 0.0) every flag written is
    DORMANT or GROWING, and every data line whose flag is not GROWING has
    the cumulative 0.0, whatever was accumulated before. *)
Theorem dormant_rows_are_zero (all_days : bool) (latitude : float64)
    (df : DataFrame) :
  Forall (fun l => flag_is_01 l /\ reset_when_dormant l)
    (series all_days latitude df DORMANT F64.zero).
Proof.
  apply Forall_and. split.
  - apply series_flags. left. reflexivity.
  - apply series_reset.
Qed.

Lemma series_south (all_days : bool) (latitude : float64) (df : DataFrame) :
  (latitude <? F64.zero)%f64 = true ->
  Forall dormant_and_zero (series all_days latitude df DORMANT F64.zero).
Proof.
  intros Hlat. induction df as [| r df IH]; [constructor |].
  rewrite series_cons. unfold cum_thermal_time.
  rewrite (season_gate_south _ _ _ _ Hlat). cbn [fst snd DORMANT Z.eqb].
  constructor; [| exact IH].
  unfold dormant_and_zero. rewrite write_tt_line_gs, write_tt_line_tt.
  split; reflexivity.
Qed.

(** C5.  South of the equator (latitude < 0) no step changes the flag, and
    a series started from (DORMANT, 0.0) writes DORMANT and 0.0 on every
    line, whatever the days and the temperatures. *)
Theorem south_stays_dormant (latitude : float64) :
  (latitude <? F64.zero)%f64 = true ->
  (forall (doy tmp tavg : float64) (gs : Z) (tt0 : float64),
      fst (cum_thermal_time latitude doy tmp tavg gs tt0) = gs)
  /\ (forall (all_days : bool) (df : DataFrame),
      Forall dormant_and_zero (series all_days latitude df DORMANT F64.zero)).
Proof.
  intros Hlat. split.
  - intros d tmp tav gs tt0. cbn [cum_thermal_time fst].
    apply season_gate_south. exact Hlat.
  - intros all_days df. apply series_south. exact Hlat.
Qed.

Lemma south_stays_dormant_witness :
  Forall dormant_and_zero
    (series false (of_Z (-30))
       [ {| year := of_Z 2001; doy := 100; tmax := of_Z 25; tmin := of_Z 15;
            tavg := of_Z 20; tma := NaN |};
         {| year := of_Z 2001; doy := 250; tmax := of_Z 9; tmin := of_Z 1;
            tavg := of_Z 5; tma := NaN |} ]
       DORMANT F64.zero).
Proof.
  apply (south_stays_dormant (of_Z (-30))). reflexivity.
Defined.

End Series.

(** ** main, file by file *)

Section Main.

Lemma read_weather_no_data (f : file) (latitude : float64) :
  file_parse f = inr (latitude, []) -> read_weather f = inl EmptyDataError.
Proof. intros H. unfold read_weather. rewrite H. reflexivity. Qed.

Lemma read_weather_data (f : file) (latitude : float64) (rows : list raw_row) :
  file_parse f = inr (latitude, rows) -> rows <> [] ->
  read_weather f = inr (latitude, map with_tavg rows).
Proof.
  intros H Hne. unfold read_weather. rewrite H.
  destruct rows; [contradiction | reflexivity].
Qed.

Lemma process_skip (a : args) (f : file) (w : world) :
  matches a f = false -> process a f w = (w, inr tt).
Proof. intros H. unfold process. rewrite H. reflexivity. Qed.

(** What [process] does to a file with the extension asked for. *)
Lemma process_matching (a : args) (f : file) (w : world) :
  matches a f = true ->
  process a f w =
  match read_weather f with
  | inl e => (after_read f w, inl e)
  | inr (latitude, df) =>
      match prepare a df with
      | inl e => (after_read f w, inl e)
      | inr df' =>
          (after_write a f (output_lines a latitude df') w, inr tt)
      end
  end.
Proof.
  intros H. unfold process. rewrite H. cbn [negb].
  unfold mbind, M_bind, bind, print, do_read_weather, after_read, after_write.
  cbn [stdout reads dirs files].
  destruct (read_weather f) as [e | [latitude df]]; [reflexivity |].
  unfold lift. destruct (prepare a df) as [e | df']; reflexivity.
Qed.

Lemma process_all_cons (a : args) (f : file) (listing : list file) (w : world) :
  process_all a (f :: listing) w =
  match process a f w with
  | (w', inl e) => (w', inl e)
  | (w', inr _) => process_all a listing w'
  end.
Proof.
  cbn [process_all]. unfold mbind, M_bind, bind.
  destruct (process a f w) as [w' [e | []]]; reflexivity.
Qed.

(** An exception in one file ends the run there. *)
Lemma process_all_abort (a : args) (f : file) (listing : list file)
    (w w' : world) (e : exn) :
  process a f w = (w', inl e) -> process_all a (f :: listing) w = (w', inl e).
Proof. intros H. rewrite process_all_cons, H. reflexivity. Qed.

Lemma main_parsed (c : cli) (a : args) (listing : list file) (w : world) :
  parse_arguments c = inr a -> main c listing w = process_all a listing w.
Proof.
  intros H. unfold main, mbind, M_bind, bind, lift. rewrite H. reflexivity.
Qed.

Lemma main_rejected (c : cli) (e : exn) (listing : list file) (w : world) :
  parse_arguments c = inl e -> main c listing w = (w, inl e).
Proof.
  intros H. unfold main, mbind, M_bind, bind, lift. rewrite H. reflexivity.
Qed.

End Main.

(** ** Day 366 in Mode B *)

Section Day366.

Lemma group_insert_keys (r : row) (groups : list (Z * list row)) (k : Z) :
  In k (map fst (group_insert r groups)) <-> k = doy r \/ In k (map fst groups).
Proof.
  induction groups as [| [k0 rs] groups IH]; cbn [group_insert map fst In].
  - split; intros [H | H]; auto.
  - destruct (Z.ltb_spec (doy r) k0) as [Hlt | Hge]; cbn [map fst In].
    + split; intros [H | H]; auto.
    + destruct (Z.eqb_spec (doy r) k0) as [Heq | Hne]; cbn [map fst In].
      * subst k0. split; [intros [H | H]; auto | intros [H | [H | H]]; auto].
      * rewrite IH. split; [intros [H | [H | H]] | intros [H | [H | H]]]; auto.
Qed.

Lemma groupby_from_keys (df : DataFrame) (k : Z) :
  forall groups : list (Z * list row),
    In k (map fst (fold_left (fun g r => group_insert r g) df groups))
    <-> In k (map fst groups) \/ In k (map doy df).
Proof.
  induction df as [| r df IH]; intros groups; cbn [fold_left map In].
  - split; [auto | intros [H | []]; exact H].
  - rewrite IH, group_insert_keys.
    split; [intros [[H | H] | H] | intros [H | [H | H]]]; auto.
Qed.

(** The labels of the grouped table are the days of the file. *)
Lemma groupby_doy_mean_keys (df : DataFrame) (k : Z) :
  In k (map doy (groupby_doy_mean df)) <-> In k (map doy df).
Proof.
  unfold groupby_doy_mean, groupby_doy. rewrite map_map. cbn [group_mean doy].
  change (map (fun x : Z * list row => fst x) ?l) with (map fst l).
  rewrite groupby_from_keys. cbn [map In].
  split; [intros [[] | H] | intros H]; auto.
Qed.

Lemma existsb_doy (d : Z) (df : DataFrame) :
  existsb (fun r => doy r =? d) df = true <-> In d (map doy df).
Proof.
  rewrite existsb_exists, in_map_iff. split.
  - intros [r [Hin Heq]]. exists r. split; [lia | exact Hin].
  - intros [r [Heq Hin]]. exists r. split; [exact Hin | lia].
Qed.

Lemma has_doy_with_tavg (d : Z) (rows : list raw_row) :
  has_doy d rows = existsb (fun r => doy r =? d) (map with_tavg rows).
Proof.
  unfold has_doy. induction rows as [| r rows IH]; [reflexivity |].
  cbn [existsb map with_tavg doy]. rewrite IH. reflexivity.
Qed.

(** Mode B goes through exactly when the file has a line for day 366. *)
Lemma prepare_mode_b (a : args) (rows : list raw_row) :
  all_days a = false ->
  prepare a (map with_tavg rows) =
  if has_doy 366 rows
  then inr (List.filter (fun r => negb (doy r =? 366))
              (groupby_doy_mean (map with_tavg rows)))
  else inl KeyError.
Proof.
  intros Hmode. unfold prepare, drop. rewrite Hmode.
  rewrite has_doy_with_tavg.
  destruct (existsb _ (map with_tavg rows)) eqn:E.
  - apply (proj1 (existsb_doy _ _)) in E.
    apply (proj2 (groupby_doy_mean_keys _ _)) in E.
    apply (proj2 (existsb_doy _ _)) in E. rewrite E. reflexivity.
  - destruct (existsb _ (groupby_doy_mean _)) eqn:E'; [| reflexivity].
    apply (proj1 (existsb_doy _ _)) in E'.
    apply (proj1 (groupby_doy_mean_keys _ _)) in E'.
    apply (proj2 (existsb_doy _ _)) in E'. congruence.
Qed.

Lemma filter_not_366 (df : DataFrame) :
  Forall (fun r => doy r <> 366) (List.filter (fun r => negb (doy r =? 366)) df).
Proof.
  induction df as [| r df IH]; cbn [List.filter]; [constructor |].
  destruct (Z.eqb_spec (doy r) 366) as [E | E]; cbn [negb].
  - exact IH.
  - constructor; assumption.
Qed.

Lemma series_not_366 (all_days : bool) (latitude : float64) (df : DataFrame) :
  Forall (fun r => doy r <> 366) df ->
  forall (gs : Z) (t : float64),
    Forall (fun l => line_doy l <> Some 366) (series all_days latitude df gs t).
Proof.
  intros Hdf. induction Hdf as [| r df Hr Hdf IH]; intros gs t; [constructor |].
  rewrite series_cons. constructor; [| apply IH].
  rewrite write_tt_line_doy. intros E. apply Hr. injection E as E. exact E.
Qed.

Lemma output_lines_doy (a : args) (latitude : float64) (df : DataFrame) :
  Forall (fun r => doy r <> 366) df ->
  Forall (fun l => line_doy l <> Some 366) (output_lines a latitude df).
Proof.
  intros Hdf. unfold output_lines. constructor.
  - destruct (all_days a); discriminate.
  - apply series_not_366. exact Hdf.
Qed.

(** C10.  In Mode B a file goes through only if it has a line for day
    366.  With one, the file is processed, and no line of its output is
    for day 366.  Without one, [drop(366)] raises KeyError before the
    output file is opened: no output file is written and the run stops
    (for a file without any data line it is [read_csv] that raises, with
    the same outcome). *)
Theorem mode_b_needs_day_366 (a : args) (f : file) (latitude : float64)
    (rows : list raw_row) (w : world) :
  all_days a = false -> matches a f = true ->
  file_parse f = inr (latitude, rows) ->
  (has_doy 366 rows = true ->
     exists ls : list line,
       process a f w = (after_write a f ls w, inr tt)
       /\ files (after_write a f ls w) !! output_name a f = Some ls
       /\ Forall (fun l => line_doy l <> Some 366) ls)
  /\ (has_doy 366 rows = false ->
      process a f w
        = (after_read f w,
           inl match rows with [] => EmptyDataError | _ => KeyError end)
      /\ files (after_read f w) = files w
      /\ forall rest : list file,
           process_all a (f :: rest) w
           = (after_read f w,
              inl match rows with [] => EmptyDataError | _ => KeyError end)).
Proof.
  intros Hmode Hext Hparse.
  destruct rows as [| r rows'].
  { split; [discriminate |]. intros _.
    assert (Hproc : process a f w = (after_read f w, inl EmptyDataError)).
    { rewrite (process_matching _ _ _ Hext).
      rewrite (read_weather_no_data _ _ Hparse). reflexivity. }
    split; [exact Hproc | split; [reflexivity |]].
    intros rest. apply process_all_abort. exact Hproc. }
  set (rows := r :: rows') in *.
  assert (Hproc : process a f w =
                  match prepare a (map with_tavg rows) with
                  | inl e => (after_read f w, inl e)
                  | inr df' => (after_write a f (output_lines a latitude df') w, inr tt)
                  end).
  { rewrite (process_matching _ _ _ Hext).
    rewrite (read_weather_data _ _ _ Hparse); [reflexivity | discriminate]. }
  rewrite (prepare_mode_b _ _ Hmode) in Hproc.
  split; intros H366; rewrite H366 in Hproc.
  - eexists. split; [exact Hproc | split].
    + unfold after_write. cbn [files]. apply lookup_insert_eq.
    + apply output_lines_doy, filter_not_366.
  - split; [exact Hproc | split; [reflexivity |]].
    intros rest. apply process_all_abort. exact Hproc.
Qed.

Lemma mode_b_needs_day_366_witness :
  process (mk_args "data" "weather" 4 1 14 false)
    (mk_file "a.weather"
       (inr (of_Z 45, [mk_raw 2001 100 (of_Z 20) (of_Z 10);
                       mk_raw 2002 100 (of_Z 24) (of_Z 12)])))
    empty_world
  = (after_read
       (mk_file "a.weather"
          (inr (of_Z 45, [mk_raw 2001 100 (of_Z 20) (of_Z 10);
                          mk_raw 2002 100 (of_Z 24) (of_Z 12)])))
       empty_world, inl KeyError).
Proof.
  apply (mode_b_needs_day_366 (mk_args "data" "weather" 4 1 14 false)
           (mk_file "a.weather"
              (inr (of_Z 45, [mk_raw 2001 100 (of_Z 20) (of_Z 10);
                              mk_raw 2002 100 (of_Z 24) (of_Z 12)])))
           (of_Z 45)
           [mk_raw 2001 100 (of_Z 20) (of_Z 10);
            mk_raw 2002 100 (of_Z 24) (of_Z 12)]
           empty_world);
    reflexivity.
Defined.

End Day366.

(** ** A window that is not positive *)

Section Window.

Lemma rolling_rejects (window : Z) (df : DataFrame) :
  window <= 0 -> rolling_mean_tavg window df = inl ValueError.
Proof.
  intros H. unfold rolling_mean_tavg.
  destruct (Z.ltb_spec window 1) as [_ | Hge]; [reflexivity | lia].
Qed.

(** In Mode A such a window stops the first file with the extension, once
    it has been read. *)
Lemma process_all_mode_a_window (a : args) (listing : list file) :
  all_days a = true -> window a <= 0 ->
  forall w : world,
    process_all a listing w =
    match find (matches a) listing with
    | None => (w, inr tt)
    | Some f =>
        (after_read f w,
         inl match read_weather f with inl e => e | inr _ => ValueError end)
    end.
Proof.
  intros Hmode Hwin. induction listing as [| f listing IH]; intros w.
  - reflexivity.
  - rewrite process_all_cons. cbn [find].
    destruct (matches a f) eqn:Hext.
    + rewrite (process_matching _ _ _ Hext).
      destruct (read_weather f) as [e | [latitude df]]; [reflexivity |].
      unfold prepare. rewrite Hmode, (rolling_rejects _ _ Hwin). reflexivity.
    + rewrite (process_skip _ _ _ Hext). apply IH.
Qed.

(** In Mode B the window is not looked at. *)
Lemma process_all_mode_b_window (p e : string) (n l win win' : Z)
    (listing : list file) :
  forall w : world,
    process_all (mk_args p e n l win false) listing w
    = process_all (mk_args p e n l win' false) listing w.
Proof.
  induction listing as [| f listing IH]; intros w; [reflexivity |].
  rewrite !process_all_cons.
  change (process (mk_args p e n l win' false) f w)
    with (process (mk_args p e n l win false) f w).
  destruct (process (mk_args p e n l win false) f w) as [w' [x | []]];
    [reflexivity | apply IH].
Qed.

(** C9, as the script has it.  A window that is not positive is accepted
    by the command line.  In Mode A the run opens the first file with the
    extension and stops there with an exception (ValueError of the rolling
    mean, unless the file itself is bad), no output file created or
    written; in Mode B the run is the same as with any other window. *)
Theorem nonpositive_window (p e : string) (n l win : Z)
    (listing : list file) (w : world) :
  win <= 0 ->
  (forall mode : bool,
      parse_arguments (mk_cli (Some p) (Some e) (Some n) (Some l) (Some win) mode)
      = inr (mk_args p e n l win mode))
  /\ main (mk_cli (Some p) (Some e) (Some n) (Some l) (Some win) true) listing w
     = match find (matches (mk_args p e n l win true)) listing with
       | None => (w, inr tt)
       | Some f =>
           (after_read f w,
            inl match read_weather f with inl x => x | inr _ => ValueError end)
       end
  /\ (forall win' : Z,
        main (mk_cli (Some p) (Some e) (Some n) (Some l) (Some win) false) listing w
        = main (mk_cli (Some p) (Some e) (Some n) (Some l) (Some win') false) listing w).
Proof.
  intros Hwin. split; [reflexivity | split].
  - rewrite (main_parsed _ (mk_args p e n l win true)); [| reflexivity].
    apply process_all_mode_a_window; [reflexivity | exact Hwin].
  - intros win'.
    rewrite (main_parsed _ (mk_args p e n l win false)); [| reflexivity].
    rewrite (main_parsed _ (mk_args p e n l win' false)); [| reflexivity].
    apply process_all_mode_b_window.
Qed.

Lemma nonpositive_window_witness :
  main (mk_cli (Some "data") (Some "weather") (Some 4) (Some 1) (Some 0) true)
    [mk_file "notes.txt" (inl InputError);
     mk_file "a.weather" (inr (of_Z 45, [mk_raw 2001 100 (of_Z 20) (of_Z 10)]));
     mk_file "b.weather" (inr (of_Z 45, []))]
    empty_world
  = (after_read
       (mk_file "a.weather" (inr (of_Z 45, [mk_raw 2001 100 (of_Z 20) (of_Z 10)])))
       empty_world,
     inl ValueError).
Proof.
  apply (nonpositive_window "data" "weather" 4 1 0
           [mk_file "notes.txt" (inl InputError);
            mk_file "a.weather" (inr (of_Z 45, [mk_raw 2001 100 (of_Z 20) (of_Z 10)]));
            mk_file "b.weather" (inr (of_Z 45, []))]
           empty_world).
  lia.
Defined.

(** C9 does not hold as stated: a run with window 0 that reads its input
    and writes its output (Mode B, one file with a line for day 366). *)
Lemma window_zero_mode_b_runs :
  let run :=
    main (mk_cli (Some "data") (Some "weather") (Some 4) (Some 1) (Some 0) false)
      [mk_file "a.weather"
         (inr (of_Z 45, [mk_raw 2000 100 (of_Z 20) (of_Z 10);
                         mk_raw 2000 366 (of_Z 4) (of_Z 0)]))]
      empty_world in
  snd run = inr tt
  /\ reads (fst run) = ["a.weather"%string]
  /\ files (fst run) !! "thermal_time/a.tt.txt"%string
     = Some [write_header_line false 0;
             DayB 100 (Fin (60 # 4)) (Fin (36 # 4)) GROWING].
Proof. repeat split. Qed.

End Window.

(** * Further properties of the script *)

(** ** The range of thermal_time *)

Section Range.

Lemma ramp_down_range (b o m t : Q) :
  (b < o)%Q -> (o <= t)%Q -> (t < m)%Q ->
  (0 <= (m + - t) / (m + - o) * (o + - b)
   /\ (m + - t) / (m + - o) * (o + - b) <= o - b)%Q.
Proof.
  intros Hbo Hot Htm.
  assert (Hy : (0 < m + - o)%Q) by lra.
  assert (Hr0 : (0 <= (m + - t) / (m + - o))%Q).
  { apply Qle_shift_div_l; [exact Hy | lra]. }
  assert (Hr1 : ((m + - t) / (m + - o) <= 1)%Q).
  { apply Qle_shift_div_r; [exact Hy | lra]. }
  split; nra.
Qed.

Lemma thermal_time_value (b o m t : Q) :
  (b < o)%Q -> (o <= m)%Q ->
  exists q : Q,
    thermal_time (Fin b) (Fin o) (Fin m) (Fin t) = Fin q
    /\ (0 <= q)%Q /\ (q <= o - b)%Q /\ ((b <= t)%Q -> (q <= t - b)%Q).
Proof.
  intros Hbo Hom. unfold thermal_time. cbn [F64.leb F64.geb F64.ltb].
  destruct (Qle_bool t b) eqn:E1; cbn [orb].
  { exists 0%Q. f64_to_Q. repeat split; try lra. }
  destruct (Qle_bool m t) eqn:E2; cbn [orb].
  { exists 0%Q. f64_to_Q. repeat split; try lra. }
  f64_to_Q.
  destruct (Qltb t o) eqn:E3; f64_to_Q.
  - exists (t + - b)%Q. cbn. repeat split; try lra.
  - cbn [F64.sub F64.neg F64.add F64.div].
    destruct (Qcompare_spec (m + - o) 0) as [E | E | E]; try lra;
      cbn [F64.mul]; eexists; (split; [reflexivity |]);
      destruct (ramp_down_range b o m t Hbo E3 E2) as [H0 H1];
      repeat split; try lra.
Qed.

(** X1.  For a calibration [base < optimum <= max] and every temperature
    but NaN, [thermal_time] is a number between 0 and [optimum - base],
    and, for a temperature at or above the base, never more than its
    excess over the base. *)
Theorem thermal_time_range (b o m : Q) (tmp : float64) :
  (b < o)%Q -> (o <= m)%Q -> is_nan tmp = false ->
  exists q : Q,
    thermal_time (Fin b) (Fin o) (Fin m) tmp = Fin q
    /\ (0 <= q)%Q /\ (q <= o - b)%Q
    /\ (forall t : Q, tmp = Fin t -> (b <= t)%Q -> (q <= t - b)%Q).
Proof.
  intros Hbo Hom Hnan. destruct tmp as [| | t |]; [discriminate | | |].
  - exists 0%Q. split; [reflexivity |].
    split; [lra | split; [lra | discriminate]].
  - destruct (thermal_time_value b o m t Hbo Hom) as [q [Hq [H0 [H1 H2]]]].
    exists q. split; [exact Hq | split; [exact H0 | split; [exact H1 |]]].
    intros t' E. injection E as <-. exact H2.
  - exists 0%Q. split; [reflexivity |].
    split; [lra | split; [lra | discriminate]].
Qed.

Lemma thermal_time_range_witness :
  exists q : Q,
    thermal_time (Fin 6) (Fin 30) (Fin 40) (Fin 35) = Fin q
    /\ (0 <= q)%Q /\ (q <= 30 - 6)%Q
    /\ (forall t : Q, Fin 35 = Fin t -> (6 <= t)%Q -> (q <= t - 6)%Q).
Proof.
  apply (thermal_time_range 6 30 40 (Fin 35)); first [reflexivity | discriminate].
Defined.

End Range.

(** ** The calibration of the script *)

Section ScriptCalibration.

(** X2.  With the constants of the script (base 6, optimum 100, max 100)
    the thermal time of a temperature that is not NaN is [tmp - 6] for
    [6 < tmp < 100] and 0.0 elsewhere: the third arm is never taken. *)
Theorem script_thermal_time (tmp : float64) :
  is_nan tmp = false ->
  thermal_time T_BASE T_OPT T_MAX tmp
    = (if ((of_Z 6 <? tmp) && (tmp <? of_Z 100))%f64
       then (tmp - of_Z 6)%f64 else Fin 0)
  /\ thermal_time_arm T_BASE T_OPT T_MAX tmp <> ArmRampDown.
Proof.
  intros Hnan. destruct tmp as [| | t |]; [discriminate | | |].
  - split; [reflexivity | discriminate].
  - unfold thermal_time, thermal_time_arm, T_BASE, T_OPT, T_MAX.
    cbn [F64.leb F64.geb F64.ltb of_Z]. unfold Qltb.
    destruct (Qle_bool t (inject_Z 6)); cbn [negb andb orb];
      [split; [reflexivity | discriminate] |].
    destruct (Qle_bool (inject_Z 100) t); cbn [negb andb orb];
      split; first [reflexivity | discriminate].
  - split; [reflexivity | discriminate].
Qed.

Lemma script_thermal_time_witness :
  thermal_time T_BASE T_OPT T_MAX (Fin (25 # 2)) = (Fin (25 # 2) - of_Z 6)%f64.
Proof.
  apply (script_thermal_time (Fin (25 # 2))). reflexivity.
Defined.

(** The daily increment of the script: a number from 0 to 94. *)
Lemma script_increment (tavg : float64) :
  is_nan tavg = false ->
  exists q : Q,
    thermal_time T_BASE T_OPT T_MAX tavg = Fin q /\ (0 <= q)%Q /\ (q <= 94)%Q.
Proof.
  intros Hnan. destruct tavg as [| | t |]; [discriminate | | |].
  - exists 0%Q. split; [reflexivity | split; lra].
  - destruct (thermal_time_value 6 100 100 t ltac:(lra) ltac:(lra))
      as [q [Hq [H0 [H1 _]]]].
    exists q. split; [exact Hq | split; lra].
  - exists 0%Q. split; [reflexivity | split; lra].
Qed.

(** X3.  During the growing season the cumulative never goes down: when
    the new flag is GROWING, the day's average is not NaN and the prior
    cumulative is a number, the new cumulative is a number, at least the
    prior one and at most 94 above it. *)
Theorem cumulative_never_decreases (latitude doy tmp tavg : float64)
    (gs : Z) (q0 : Q) :
  is_nan tavg = false ->
  season_gate latitude doy tmp gs = GROWING ->
  exists q1 : Q,
    snd (cum_thermal_time latitude doy tmp tavg gs (Fin q0)) = Fin q1
    /\ (q0 <= q1)%Q /\ (q1 <= q0 + 94)%Q.
Proof.
  intros Hnan Hgate. unfold cum_thermal_time. cbn [snd]. rewrite Hgate.
  destruct (script_increment tavg Hnan) as [q [Hq [H0 H1]]].
  rewrite Hq. cbn. exists (q + q0)%Q. split; [reflexivity | split; lra].
Qed.

Lemma cumulative_never_decreases_witness :
  exists q1 : Q,
    snd (cum_thermal_time (of_Z 45) (of_Z 100) (of_Z 12) (of_Z 20)
           DORMANT (Fin 30)) = Fin q1
    /\ (30 <= q1)%Q /\ (q1 <= 30 + 94)%Q.
Proof.
  apply (cumulative_never_decreases (of_Z 45) (of_Z 100) (of_Z 12) (of_Z 20)
           DORMANT 30); reflexivity.
Defined.

Lemma cum_thermal_time_nonneg (latitude doy tmp tavg : float64) (gs : Z)
    (tt0 : float64) :
  is_nan tavg = false -> nonneg tt0 ->
  nonneg (snd (cum_thermal_time latitude doy tmp tavg gs tt0)).
Proof.
  intros Hnan [q0 [-> Hq0]]. unfold cum_thermal_time. cbn [snd].
  destruct (season_gate latitude doy tmp gs =? 1).
  - destruct (script_increment tavg Hnan) as [q [Hq [H0 H1]]].
    rewrite Hq. exists (q + q0)%Q. split; [reflexivity | lra].
  - exists 0%Q. split; [reflexivity | lra].
Qed.

Lemma series_nonneg_from (all_days : bool) (latitude : float64) (df : DataFrame) :
  Forall (fun r => is_nan (tavg r) = false) df ->
  forall (gs : Z) (t : float64),
    nonneg t -> Forall cumulative_nonneg (series all_days latitude df gs t).
Proof.
  intros Hdf. induction Hdf as [| r df Hr Hdf IH]; intros gs t Ht; [constructor |].
  rewrite series_cons.
  assert (Hstep : nonneg (snd (cum_thermal_time latitude (of_Z (doy r))
                                 (if all_days then tma r else tavg r)
                                 (tavg r) gs t))).
  { apply cum_thermal_time_nonneg; assumption. }
  constructor; [| apply IH; exact Hstep].
  unfold cumulative_nonneg. rewrite write_tt_line_tt. exact Hstep.
Qed.

(** X4.  When no daily average of the table is NaN, every cumulative
    written by the loop of main is a number and is not negative. *)
Theorem series_cumulative_nonneg (all_days : bool) (latitude : float64)
    (df : DataFrame) :
  Forall (fun r => is_nan (tavg r) = false) df ->
  Forall cumulative_nonneg (series all_days latitude df DORMANT F64.zero).
Proof.
  intros Hdf. apply series_nonneg_from; [exact Hdf |].
  exists 0%Q. split; [reflexivity | lra].
Qed.

Lemma series_cumulative_nonneg_witness :
  Forall cumulative_nonneg
    (series false (of_Z 45)
       [ {| year := of_Z 2001; doy := 100; tmax := of_Z 25; tmin := of_Z 15;
            tavg := of_Z 20; tma := NaN |};
         {| year := of_Z 2001; doy := 250; tmax := of_Z 9; tmin := of_Z 1;
            tavg := of_Z 5; tma := NaN |} ]
       DORMANT F64.zero).
Proof.
  apply (series_cumulative_nonneg false (of_Z 45)).
  repeat constructor.
Defined.

Lemma add_nan_r (x : float64) : (x + NaN)%f64 = NaN.
Proof. destruct x; reflexivity. Qed.

(** X5.  A missing value spoils the season's total: when the new flag is
    GROWING and the day's average or the prior cumulative is NaN, the new
    cumulative is NaN. *)
Theorem nan_spoils_cumulative (latitude doy tmp tavg : float64) (gs : Z)
    (tt0 : float64) :
  season_gate latitude doy tmp gs = GROWING ->
  tavg = NaN \/ tt0 = NaN ->
  snd (cum_thermal_time latitude doy tmp tavg gs tt0) = NaN.
Proof.
  intros Hgate Hnan. unfold cum_thermal_time. cbn [snd]. rewrite Hgate.
  cbn [GROWING Z.eqb Pos.eqb]. destruct Hnan as [-> | ->].
  - reflexivity.
  - apply add_nan_r.
Qed.

Lemma nan_spoils_cumulative_witness :
  snd (cum_thermal_time (of_Z 45) (of_Z 100) (of_Z 12) NaN DORMANT (Fin 30))
  = NaN.
Proof.
  apply (nan_spoils_cumulative (of_Z 45) (of_Z 100) (of_Z 12) NaN DORMANT (Fin 30));
    [reflexivity | left; reflexivity].
Defined.

End ScriptCalibration.

(** ** The windows of the season gate *)

Section GateWindows.

(** X6.  A reference temperature or a day of year that is NaN never
    switches the season: the flag passes through, at every latitude. *)
Theorem season_gate_nan (latitude x : float64) (gs : Z) :
  season_gate latitude x NaN gs = gs /\ season_gate latitude NaN x gs = gs.
Proof.
  unfold season_gate, fall_assign, spring_assign, fall_trigger, spring_trigger.
  split; destruct (latitude >=? F64.zero)%f64; try reflexivity.
  unfold F64.geb. rewrite nan_leb_r, nan_ltb_l, !andb_false_r. reflexivity.
Qed.

(** X7.  The gate only switches on before day 152 and only switches off
    from day 245 on: a GROWING flag is kept on every day before 245, a
    DORMANT flag on every day from 152 on, and from day 152 to day 244 the
    flag is kept whatever it is, at every latitude and temperature. *)
Theorem season_gate_windows (latitude doy tmp : float64) (gs : Z) :
  ((doy >=? of_Z 245)%f64 = false ->
     season_gate latitude doy tmp GROWING = GROWING)
  /\ ((doy <? of_Z 152)%f64 = false ->
     season_gate latitude doy tmp DORMANT = DORMANT)
  /\ ((doy <? of_Z 152)%f64 = false -> (doy >=? of_Z 245)%f64 = false ->
     season_gate latitude doy tmp gs = gs).
Proof.
  unfold season_gate, fall_assign, spring_assign, fall_trigger, spring_trigger.
  split; [| split].
  - intros Hfall. rewrite Hfall. cbn [andb].
    destruct (latitude >=? F64.zero)%f64; [| reflexivity].
    destruct ((doy <? of_Z 152) && (tmp >=? T_THLD))%f64; reflexivity.
  - intros Hspring. rewrite Hspring. cbn [andb].
    destruct (latitude >=? F64.zero)%f64; [| reflexivity].
    destruct ((doy >=? of_Z 245) && (tmp <? T_THLD))%f64; reflexivity.
  - intros Hspring Hfall. rewrite Hspring, Hfall. cbn [andb].
    destruct (latitude >=? F64.zero)%f64; reflexivity.
Qed.

End GateWindows.

(** ** File names *)

Section Names.

Local Open Scope string_scope.

Lemma append_nil (t : string) : "" ++ t = t.
Proof. reflexivity. Qed.

Lemma append_cons (c : ascii) (s t : string) :
  String c s ++ t = String c (s ++ t).
Proof. reflexivity. Qed.

Lemma length_append (s t : string) :
  String.length (s ++ t) = (String.length s + String.length t)%nat.
Proof.
  induction s as [| c s IH]; [reflexivity |].
  rewrite append_cons. cbn [String.length]. rewrite IH. reflexivity.
Qed.

Lemma append_assoc (s t u : string) : (s ++ t) ++ u = s ++ (t ++ u).
Proof.
  induction s as [| c s IH]; [reflexivity |].
  rewrite !append_cons, IH. reflexivity.
Qed.

Lemma substring_all (s : string) : substring 0 (String.length s) s = s.
Proof.
  induction s as [| c s IH]; [reflexivity |].
  cbn [String.length substring]. rewrite IH. reflexivity.
Qed.

Lemma substring_prefix (s t : string) :
  substring 0 (String.length s) (s ++ t) = s.
Proof.
  induction s as [| c s IH].
  - rewrite append_nil. destruct t; reflexivity.
  - rewrite append_cons. cbn [String.length substring]. rewrite IH. reflexivity.
Qed.

Lemma substring_suffix (s t : string) :
  substring (String.length s) (String.length t) (s ++ t) = t.
Proof.
  induction s as [| c s IH].
  - rewrite append_nil. apply substring_all.
  - rewrite append_cons. cbn [String.length substring]. exact IH.
Qed.

Lemma substring_split (s : string) :
  forall k : nat,
    (k <= String.length s)%nat ->
    substring 0 k s ++ substring k (String.length s - k) s = s.
Proof.
  induction s as [| c s IH]; intros k Hk.
  - destruct k; reflexivity.
  - destruct k as [| k].
    + rewrite Nat.sub_0_r.
      change (substring 0 0 (String c s)) with "". rewrite append_nil.
      apply substring_all.
    + cbn [String.length] in Hk. cbn [substring String.length Nat.sub].
      rewrite append_cons, IH; [reflexivity | lia].
Qed.

Lemma endswith_iff (s suffix : string) :
  endswith s suffix = true <-> exists stem : string, s = stem ++ suffix.
Proof.
  unfold endswith. rewrite andb_true_iff, Nat.leb_le, String.eqb_eq. split.
  - intros [Hlen Hsub].
    exists (substring 0 (String.length s - String.length suffix) s).
    rewrite <- (substring_split s (String.length s - String.length suffix))
      at 1 by lia.
    replace (String.length s - (String.length s - String.length suffix))%nat
      with (String.length suffix) by lia.
    rewrite Hsub. reflexivity.
  - intros [stem ->]. rewrite length_append. split; [lia |].
    replace (String.length stem + String.length suffix - String.length suffix)%nat
      with (String.length stem) by lia.
    apply substring_suffix.
Qed.

(** X10.  A directory entry is taken exactly when its name is a stem
    followed by a dot and the extension. *)
Theorem matches_iff_suffix (a : args) (f : file) :
  matches a f = true
  <-> exists stem : string, file_name f = stem ++ "." ++ extension a.
Proof. unfold matches. apply endswith_iff. Qed.

(** X11.  For an extension that is not empty, the output of
    [stem.extension] is [thermal_time/stem.tt.txt]. *)
Theorem output_name_of_stem (a : args) (f : file) (stem : string) :
  extension a <> "" ->
  file_name f = stem ++ "." ++ extension a ->
  matches a f = true
  /\ output_name a f = "thermal_time" ++ "/" ++ stem ++ "." ++ "tt.txt".
Proof.
  intros Hext Hname. split.
  - unfold matches. apply endswith_iff. exists stem. exact Hname.
  - unfold output_name, slice_to_minus. rewrite Hname.
    destruct (String.length (extension a)) eqn:Hlen.
    + destruct (extension a); [contradiction | discriminate].
    + rewrite <- Hlen.
      change (stem ++ "." ++ extension a) with (stem ++ ("." ++ extension a)).
      rewrite <- (append_assoc stem "." (extension a)).
      rewrite length_append.
      replace (String.length (stem ++ ".") + String.length (extension a)
               - String.length (extension a))%nat
        with (String.length (stem ++ ".")) by lia.
      rewrite substring_prefix, append_assoc. reflexivity.
Qed.

Lemma output_name_of_stem_witness :
  matches (mk_args "data" "weather" 4 1 14 true)
    (mk_file "station.weather" (inl InputError)) = true
  /\ output_name (mk_args "data" "weather" 4 1 14 true)
       (mk_file "station.weather" (inl InputError))
     = "thermal_time" ++ "/" ++ "station" ++ "." ++ "tt.txt".
Proof.
  apply (output_name_of_stem (mk_args "data" "weather" 4 1 14 true)
           (mk_file "station.weather" (inl InputError)) "station");
    [discriminate | reflexivity].
Defined.

(** X12.  With the empty extension the slice [file[0:-0]] is empty: the
    entries taken are those whose name ends with a dot, and all of them
    have the one output name [thermal_time/tt.txt]. *)
Theorem empty_extension_one_output (a : args) (f : file) :
  extension a = "" ->
  (matches a f = true <-> exists stem : string, file_name f = stem ++ ".")
  /\ output_name a f = "thermal_time/tt.txt".
Proof.
  intros Hext. split.
  - unfold matches. rewrite Hext. apply endswith_iff.
  - unfold output_name, slice_to_minus. rewrite Hext. reflexivity.
Qed.

Lemma empty_extension_one_output_witness :
  output_name (mk_args "data" "" 4 1 14 true)
    (mk_file "station." (inl InputError))
  = "thermal_time/tt.txt".
Proof.
  apply (empty_extension_one_output (mk_args "data" "" 4 1 14 true)
           (mk_file "station." (inl InputError))).
  reflexivity.
Defined.

End Names.

(** ** Mode B: the days of the grouped table *)

Section ModeB.

Lemma group_insert_hd (r : row) (groups : list (Z * list row)) (k : Z) :
  k < doy r -> HdRel Z.lt k (map fst groups) ->
  HdRel Z.lt k (map fst (group_insert r groups)).
Proof.
  intros Hk Hhd. destruct groups as [| [k0 rs] groups]; cbn [group_insert].
  - constructor. exact Hk.
  - destruct (doy r <? k0); [constructor; exact Hk |].
    destruct (doy r =? k0); cbn [map fst] in *;
      constructor; inversion Hhd; assumption.
Qed.

Lemma group_insert_sorted (r : row) (groups : list (Z * list row)) :
  Sorted Z.lt (map fst groups) ->
  Sorted Z.lt (map fst (group_insert r groups)).
Proof.
  induction groups as [| [k0 rs] groups IH]; intros Hs; cbn [group_insert].
  - repeat constructor.
  - cbn [map fst] in Hs. inversion Hs as [| ? ? Hs' Hhd]; subst.
    destruct (Z.ltb_spec (doy r) k0) as [Hlt | Hge].
    + cbn [map fst]. constructor; [exact Hs | constructor; exact Hlt].
    + destruct (Z.eqb_spec (doy r) k0) as [Heq | Hne]; cbn [map fst].
      * constructor; assumption.
      * constructor; [apply IH; exact Hs' |].
        apply group_insert_hd; [lia | exact Hhd].
Qed.

Lemma groupby_doy_sorted (df : DataFrame) :
  Sorted Z.lt (map fst (groupby_doy df)).
Proof.
  unfold groupby_doy.
  assert (H : forall groups : list (Z * list row),
             Sorted Z.lt (map fst groups) ->
             Sorted Z.lt (map fst (fold_left (fun g r => group_insert r g) df groups))).
  { induction df as [| r df IH]; intros groups Hs; [exact Hs |].
    cbn [fold_left]. apply IH, group_insert_sorted, Hs. }
  apply H. constructor.
Qed.

Lemma filter_strongly_sorted (p : Z -> bool) (l : list Z) :
  StronglySorted Z.lt l -> StronglySorted Z.lt (List.filter p l).
Proof.
  induction 1 as [| x l Hs IH Hall]; cbn [List.filter]; [constructor |].
  destruct (p x); [| exact IH].
  constructor; [exact IH |].
  rewrite List.Forall_forall in *. intros y Hy.
  apply Hall. apply filter_In in Hy. apply Hy.
Qed.

Lemma map_doy_filter (d : Z) (df : DataFrame) :
  map doy (List.filter (fun r => negb (doy r =? d)) df)
  = List.filter (fun k => negb (k =? d)) (map doy df).
Proof.
  induction df as [| r df IH]; [reflexivity |].
  cbn [List.filter map]. destruct (negb (doy r =? d)); cbn [map];
    rewrite IH; reflexivity.
Qed.

(** X16.  In Mode B the table the loop runs over has the days of the
    weather file other than 366, each once, in ascending order, whatever
    the order and the years of the lines of the file. *)
Theorem mode_b_days (a : args) (rows : list raw_row) (df : DataFrame) :
  all_days a = false ->
  prepare a (map with_tavg rows) = inr df ->
  StronglySorted Z.lt (map doy df)
  /\ forall d : Z,
       In d (map doy df) <-> In d (map raw_doy rows) /\ d <> 366.
Proof.
  intros Hmode Hprep. rewrite (prepare_mode_b _ _ Hmode) in Hprep.
  destruct (has_doy 366 rows); [| discriminate].
  injection Hprep as <-. rewrite map_doy_filter. split.
  - apply filter_strongly_sorted.
    apply Sorted_StronglySorted; [intros x y z; apply Z.lt_trans |].
    unfold groupby_doy_mean. rewrite map_map. cbn [group_mean doy].
    apply groupby_doy_sorted.
  - intros d. rewrite filter_In, groupby_doy_mean_keys, map_map.
    cbn [with_tavg doy]. rewrite negb_true_iff, Z.eqb_neq. reflexivity.
Qed.

Lemma mode_b_days_witness :
  StronglySorted Z.lt
    (map doy
       (match prepare (mk_args "data" "weather" 4 1 14 false)
                (map with_tavg
                   [mk_raw 2001 100 (of_Z 20) (of_Z 10);
                    mk_raw 2000 366 (of_Z 2) (of_Z 0);
                    mk_raw 2001 1 (of_Z 3) (of_Z 1);
                    mk_raw 2002 100 (of_Z 24) (of_Z 12)])
        with
        | inr df => df
        | inl _ => []
        end)).
Proof.
  apply (mode_b_days (mk_args "data" "weather" 4 1 14 false)
           [mk_raw 2001 100 (of_Z 20) (of_Z 10);
            mk_raw 2000 366 (of_Z 2) (of_Z 0);
            mk_raw 2001 1 (of_Z 3) (of_Z 1);
            mk_raw 2002 100 (of_Z 24) (of_Z 12)]);
    reflexivity.
Defined.

End ModeB.

(** ** The run over the directory *)

Section Run.

(** X19.  Entries without the extension play no part: the run is the run
    over the entries that have it. *)
Theorem process_all_matching (a : args) (listing : list file) (w : world) :
  process_all a listing w = process_all a (List.filter (matches a) listing) w.
Proof.
  revert w. induction listing as [| f listing IH]; intros w; [reflexivity |].
  cbn [List.filter]. destruct (matches a f) eqn:Hext.
  - rewrite !process_all_cons.
    destruct (process a f w) as [w' [e | []]]; [reflexivity | apply IH].
  - rewrite process_all_cons, (process_skip _ _ _ Hext). apply IH.
Qed.

Lemma process_files_other (a : args) (f : file) (w : world) (fn : string) :
  (matches a f = true -> output_name a f <> fn) ->
  files (fst (process a f w)) !! fn = files w !! fn.
Proof.
  intros Hfn. destruct (matches a f) eqn:Hext.
  - rewrite (process_matching _ _ _ Hext).
    destruct (read_weather f) as [e | [latitude df]]; [reflexivity |].
    destruct (prepare a df) as [e | df']; [reflexivity |].
    cbn [fst after_write files]. apply lookup_insert_ne. auto.
  - rewrite (process_skip _ _ _ Hext). reflexivity.
Qed.

(** X20.  The run leaves alone every output file that is not the output
    name of an entry with the extension. *)
Theorem process_all_files_other (a : args) (listing : list file) (fn : string) :
  (forall f : file, In f listing -> matches a f = true -> output_name a f <> fn) ->
  forall w : world,
    files (fst (process_all a listing w)) !! fn = files w !! fn.
Proof.
  induction listing as [| f listing IH]; intros Hfn w; [reflexivity |].
  rewrite process_all_cons.
  assert (Hf : files (fst (process a f w)) !! fn = files w !! fn).
  { apply process_files_other. apply Hfn. left. reflexivity. }
  destruct (process a f w) as [w' [e | []]]; cbn [fst] in *; [exact Hf |].
  rewrite IH; [exact Hf |].
  intros g Hg. apply Hfn. right. exact Hg.
Qed.

Lemma process_all_files_other_witness :
  files (fst (process_all (mk_args "data" "weather" 4 1 14 true)
                [mk_file "a.weather"
                   (inr (of_Z 45, [mk_raw 2001 100 (of_Z 20) (of_Z 10)]))]
                {| stdout := []; reads := []; dirs := ∅;
                   files := {["thermal_time/b.tt.txt"%string := []]} |}))
    !! "thermal_time/b.tt.txt"%string
  = Some [].
Proof.
  rewrite (process_all_files_other (mk_args "data" "weather" 4 1 14 true)
             [mk_file "a.weather"
                (inr (of_Z 45, [mk_raw 2001 100 (of_Z 20) (of_Z 10)]))]
             "thermal_time/b.tt.txt").
  - reflexivity.
  - intros f [<- | []] _. discriminate.
Defined.

Lemma process_success (a : args) (f : file) (w w' : world) :
  process a f w = (w', inr tt) ->
  reads w' = reads w ++ (if matches a f then [file_name f] else [])
  /\ (matches a f = true -> is_Some (files w' !! output_name a f))
  /\ (forall fn : string, is_Some (files w !! fn) -> is_Some (files w' !! fn)).
Proof.
  destruct (matches a f) eqn:Hext.
  - rewrite (process_matching _ _ _ Hext).
    destruct (read_weather f) as [e | [latitude df]]; [discriminate |].
    destruct (prepare a df) as [e | df']; [discriminate |].
    intros H. injection H as <-. cbn [after_write reads files].
    split; [reflexivity | split].
    + intros _. rewrite lookup_insert_eq. eauto.
    + intros fn Hsome. rewrite lookup_insert. case_decide; eauto.
  - rewrite (process_skip _ _ _ Hext). intros H. injection H as <-.
    split; [symmetry; apply app_nil_r | split; [discriminate | auto]].
Qed.

(** X21.  A run that ends without exception has read every entry with the
    extension once, in the order of the listing, and has left an output
    file for each of them. *)
Theorem process_all_success (a : args) (listing : list file) :
  forall w w' : world,
    process_all a listing w = (w', inr tt) ->
    reads w' = reads w ++ map file_name (List.filter (matches a) listing)
    /\ forall f : file,
         In f listing -> matches a f = true ->
         is_Some (files w' !! output_name a f).
Proof.
  induction listing as [| f listing IH]; intros w w' Hrun.
  - injection Hrun as <-. split; [symmetry; apply app_nil_r | intros f []].
  - rewrite process_all_cons in Hrun.
    destruct (process a f w) as [w1 [e | []]] eqn:Hf; [discriminate |].
    destruct (process_success _ _ _ _ Hf) as [Hreads [Hout Hkeep]].
    destruct (IH _ _ Hrun) as [Hreads' Hout'].
    assert (Hmono : forall fn : string,
               is_Some (files w1 !! fn) -> is_Some (files w' !! fn)).
    { clear - Hrun. revert w1 Hrun.
      induction listing as [| g listing IHl]; intros w1 Hrun fn Hsome.
      - injection Hrun as <-. exact Hsome.
      - rewrite process_all_cons in Hrun.
        destruct (process a g w1) as [w2 [e | []]] eqn:Hg; [discriminate |].
        apply (IHl _ Hrun).
        destruct (process_success _ _ _ _ Hg) as [_ [_ Hk]]. apply Hk, Hsome. }
    split.
    + rewrite Hreads', Hreads. cbn [List.filter].
      destruct (matches a f); cbn [map]; rewrite <- app_assoc; reflexivity.
    + intros g [<- | Hg] Hext; [apply Hmono, Hout, Hext | apply Hout'; assumption].
Qed.

Lemma process_all_success_witness :
  reads (fst (process_all (mk_args "data" "weather" 4 1 14 true)
                [mk_file "notes.txt" (inl InputError);
                 mk_file "a.weather"
                   (inr (of_Z 45, [mk_raw 2001 100 (of_Z 20) (of_Z 10)]))]
                empty_world))
  = reads empty_world
    ++ map file_name
         (List.filter (matches (mk_args "data" "weather" 4 1 14 true))
            [mk_file "notes.txt" (inl InputError);
             mk_file "a.weather"
               (inr (of_Z 45, [mk_raw 2001 100 (of_Z 20) (of_Z 10)]))]).
Proof.
  apply (process_all_success (mk_args "data" "weather" 4 1 14 true)
           [mk_file "notes.txt" (inl InputError);
            mk_file "a.weather"
              (inr (of_Z 45, [mk_raw 2001 100 (of_Z 20) (of_Z 10)]))]
           empty_world).
  reflexivity.
Defined.

End Run.

(** ** A year without spring *)

Section NoSpring.

Lemma season_gate_stays_dormant (latitude doy tmp : float64) :
  ((doy <? of_Z 152) && (tmp >=? T_THLD))%f64 = false ->
  season_gate latitude doy tmp DORMANT = DORMANT.
Proof.
  intros Hs. unfold season_gate, fall_assign, spring_assign, spring_trigger.
  rewrite Hs. destruct (latitude >=? F64.zero)%f64; [| reflexivity].
  destruct (fall_trigger doy tmp); reflexivity.
Qed.

(** X22.  The season starts through the spring condition only: when on no
    day of the table the day is before 152 with a reference temperature
    at or above the threshold, a run started from (DORMANT, 0.0) writes
    DORMANT and 0.0 on every line, at every latitude. *)
Theorem no_spring_no_season (all_days : bool) (latitude : float64)
    (df : DataFrame) :
  Forall (fun r =>
            ((of_Z (doy r) <? of_Z 152)
               && ((if all_days then tma r else tavg r) >=? T_THLD))%f64
            = false) df ->
  Forall dormant_and_zero (series all_days latitude df DORMANT F64.zero).
Proof.
  intros Hdf. induction Hdf as [| r df Hr Hdf IH]; [constructor |].
  rewrite series_cons. unfold cum_thermal_time.
  rewrite (season_gate_stays_dormant _ _ _ Hr). cbn [fst snd DORMANT Z.eqb].
  constructor; [| exact IH].
  unfold dormant_and_zero. rewrite write_tt_line_gs, write_tt_line_tt.
  split; reflexivity.
Qed.

Lemma no_spring_no_season_witness :
  Forall dormant_and_zero
    (series false (of_Z 45)
       [ {| year := of_Z 2001; doy := 100; tmax := of_Z 12; tmin := of_Z 2;
            tavg := of_Z 7; tma := NaN |};
         {| year := of_Z 2001; doy := 200; tmax := of_Z 30; tmin := of_Z 20;
            tavg := of_Z 25; tma := NaN |} ]
       DORMANT F64.zero).
Proof.
  apply (no_spring_no_season false (of_Z 45)).
  repeat constructor.
Defined.

End NoSpring.

(** ** A table without rows *)

Section EmptyTable.

Lemma rolling_from_length (window : nat) (l : list float64) :
  forall recent : list float64,
    length (rolling_from window recent l) = length l.
Proof.
  induction l as [| x l IH]; intros recent; [reflexivity |].
  cbn [rolling_from length]. rewrite IH. reflexivity.
Qed.

Lemma set_tma_length (df : DataFrame) :
  forall v : list float64,
    length v = length df -> length (set_tma df v) = length df.
Proof.
  induction df as [| r df IH]; intros [| x v] Hlen; try discriminate.
  - reflexivity.
  - cbn [length] in Hlen. injection Hlen as Hlen.
    cbn [set_tma length]. rewrite (IH v Hlen). reflexivity.
Qed.

(** In Mode A the table has a row for every data line. *)
Lemma prepare_mode_a_length (a : args) (df df' : DataFrame) :
  all_days a = true -> prepare a df = inr df' -> length df' = length df.
Proof.
  intros Hmode. unfold prepare, rolling_mean_tavg. rewrite Hmode.
  destruct (window a <? 1); [discriminate |].
  intros H. injection H as <-. apply set_tma_length.
  rewrite rolling_from_length, !length_map. reflexivity.
Qed.

Lemma filter_none (df : DataFrame) :
  Forall (fun r => doy r = 366) df ->
  List.filter (fun r => negb (doy r =? 366)) df = [].
Proof.
  induction 1 as [| r df Hr Hdf IH]; [reflexivity |].
  cbn [List.filter]. rewrite Hr, IH. reflexivity.
Qed.

Lemma raw_doy_with_tavg (rows : list raw_row) :
  map doy (map with_tavg rows) = map raw_doy rows.
Proof. rewrite map_map. reflexivity. Qed.

(** When every line is for day 366, so is every row of the grouped table. *)
Lemma groupby_only_366 (rows : list raw_row) :
  Forall (fun r => raw_doy r = 366) rows ->
  Forall (fun r => doy r = 366) (groupby_doy_mean (map with_tavg rows)).
Proof.
  intros Hrows. apply List.Forall_forall. intros r Hr.
  assert (Hk : In (doy r) (map raw_doy rows)).
  { rewrite <- raw_doy_with_tavg. apply groupby_doy_mean_keys.
    apply in_map. exact Hr. }
  apply in_map_iff in Hk. destruct Hk as [raw [Heq Hraw]].
  rewrite <- Heq. rewrite List.Forall_forall in Hrows. apply Hrows. exact Hraw.
Qed.

(** A grouped table emptied by [drop(366)] had the one day 366. *)
Lemma filter_empty_only_366 (rows : list raw_row) :
  List.filter (fun r => negb (doy r =? 366))
    (groupby_doy_mean (map with_tavg rows)) = [] ->
  Forall (fun r => raw_doy r = 366) rows.
Proof.
  intros Hnil. apply List.Forall_forall. intros raw Hraw.
  destruct (Z.eq_dec (raw_doy raw) 366) as [E | E]; [exact E | exfalso].
  assert (Hk : In (raw_doy raw) (map doy (groupby_doy_mean (map with_tavg rows)))).
  { apply groupby_doy_mean_keys. rewrite raw_doy_with_tavg.
    apply in_map. exact Hraw. }
  apply in_map_iff in Hk. destruct Hk as [r [Heq Hr]].
  assert (Hin : In r (List.filter (fun r => negb (doy r =? 366))
                        (groupby_doy_mean (map with_tavg rows)))).
  { apply filter_In. split; [exact Hr |].
    apply negb_true_iff, Z.eqb_neq. congruence. }
  rewrite Hnil in Hin. exact Hin.
Qed.

Lemma has_doy_all (rows : list raw_row) :
  rows <> [] -> Forall (fun r => raw_doy r = 366) rows -> has_doy 366 rows = true.
Proof.
  intros Hne Hall. destruct Hall as [| r rows Hr _]; [contradiction |].
  unfold has_doy. cbn [existsb]. rewrite Hr. reflexivity.
Qed.

(** C8, as the script has it.  A file without data lines is not processed
    in either mode: [read_csv] raises EmptyDataError and no output file is
    opened.  The loop of main runs over a table without rows only in Mode
    B, when every data line of the file is for day 366 (in Mode A the
    table has a row per data line); the file is then processed without
    error and its output file holds the header line and nothing else. *)
Theorem zero_rows_only_day_366 (a : args) (f : file) (latitude : float64)
    (rows : list raw_row) (w : world) :
  matches a f = true -> file_parse f = inr (latitude, rows) ->
  (rows = [] ->
     process a f w = (after_read f w, inl EmptyDataError)
     /\ files (after_read f w) = files w)
  /\ (all_days a = true ->
      forall df : DataFrame,
        prepare a (map with_tavg rows) = inr df -> length df = length rows)
  /\ (all_days a = false ->
      prepare a (map with_tavg rows) = inr [] ->
      Forall (fun r => raw_doy r = 366) rows)
  /\ (all_days a = false -> rows <> [] ->
      Forall (fun r => raw_doy r = 366) rows ->
      process a f w
        = (after_write a f [write_header_line false (window a)] w, inr tt)
      /\ files (after_write a f [write_header_line false (window a)] w)
           !! output_name a f
         = Some [write_header_line false (window a)]).
Proof.
  intros Hext Hparse. split; [| split; [| split]].
  - intros ->. split; [| reflexivity].
    rewrite (process_matching _ _ _ Hext).
    rewrite (read_weather_no_data _ _ Hparse). reflexivity.
  - intros Hmode df Hprep.
    rewrite (prepare_mode_a_length _ _ _ Hmode Hprep). apply length_map.
  - intros Hmode Hprep. rewrite (prepare_mode_b _ _ Hmode) in Hprep.
    destruct (has_doy 366 rows); [| discriminate].
    injection Hprep as Hnil. apply filter_empty_only_366. exact Hnil.
  - intros Hmode Hne Hall. split.
    + rewrite (process_matching _ _ _ Hext).
      rewrite (read_weather_data _ _ _ Hparse Hne).
      rewrite (prepare_mode_b _ _ Hmode), (has_doy_all _ Hne Hall).
      rewrite (filter_none _ (groupby_only_366 _ Hall)).
      unfold output_lines. rewrite Hmode. reflexivity.
    + unfold after_write. cbn [files]. apply lookup_insert_eq.
Qed.

Lemma zero_rows_only_day_366_witness :
  process (mk_args "data" "weather" 4 1 14 false)
    (mk_file "leap.weather"
       (inr (of_Z 45, [mk_raw 2000 366 (of_Z 4) (of_Z 0);
                       mk_raw 2004 366 (of_Z 6) (of_Z 2)])))
    empty_world
  = (after_write (mk_args "data" "weather" 4 1 14 false)
       (mk_file "leap.weather"
          (inr (of_Z 45, [mk_raw 2000 366 (of_Z 4) (of_Z 0);
                          mk_raw 2004 366 (of_Z 6) (of_Z 2)])))
       [write_header_line false 14] empty_world,
     inr tt).
Proof.
  apply (zero_rows_only_day_366 (mk_args "data" "weather" 4 1 14 false)
           (mk_file "leap.weather"
              (inr (of_Z 45, [mk_raw 2000 366 (of_Z 4) (of_Z 0);
                              mk_raw 2004 366 (of_Z 6) (of_Z 2)])))
           (of_Z 45)
           [mk_raw 2000 366 (of_Z 4) (of_Z 0);
            mk_raw 2004 366 (of_Z 6) (of_Z 2)]
           empty_world);
    first [reflexivity | discriminate | repeat constructor].
Defined.

(** C8 does not hold as stated: a file without data lines stops at
    [read_csv] with EmptyDataError, in Mode A and in Mode B, and there is
    no output file. *)
Lemma no_data_lines_fails :
  process (mk_args "data" "weather" 4 1 14 true)
    (mk_file "a.weather" (inr (of_Z 45, []))) empty_world
  = (after_read (mk_file "a.weather" (inr (of_Z 45, []))) empty_world,
     inl EmptyDataError)
  /\ process (mk_args "data" "weather" 4 1 14 false)
       (mk_file "a.weather" (inr (of_Z 45, []))) empty_world
     = (after_read (mk_file "a.weather" (inr (of_Z 45, []))) empty_world,
        inl EmptyDataError)
  /\ files (after_read (mk_file "a.weather" (inr (of_Z 45, []))) empty_world)
       !! "thermal_time/a.tt.txt"%string
     = None.
Proof. repeat split. Qed.

End EmptyTable.
